(** * The backend process of [main.go]: logger, database handle, router,
      logging middleware and the start / wait / shutdown lifecycle.

    The Go program is embedded shallowly.  Code that runs on the main
    goroutine is written in a small state-and-exit monad [Go] over the
    process state [Proc]; request handlers are functions that read the
    database view, write to a [ResponseWriter] and submit log entries.
    The libraries the program calls (logrus, database/sql, bun, gorilla/mux,
    net/http, os/signal, context) are modelled by the part of their
    behaviour the program relies on, each in a module of its own name. *)

From Stdlib Require Import ZArith String Ascii List Lia Bool.
From stdpp Require Import base list strings sorting.
Import ListNotations.
Open Scope string_scope.
Open Scope list_scope.
Open Scope Z_scope.

(** ** The outside world *)

(** A persisted version record: its identifier and the time it was
    published (the recency the store orders by). *)
Record Version := mkVersion { identifier : string; released : Z }.

Inductive Signal := SIGINT | SIGTERM | SIGKILL | SIGCHLD.

#[global] Instance Signal_eq_dec : EqDecision Signal.
Proof. solve_decision. Defined.

(** What the operating system and the other processes answer.  [None]
    in an error position is Go's [nil] error.  [env_flag_parse] is the
    exit status with which [flag.Parse] ends the process on a bad command
    line; [env_srv_shutdown now deadline] is what the server's [Shutdown]
    returns when called at [now] with that deadline; [env_pg t] is the
    content of the versions table at time [t], [None] when the database
    server cannot be reached.  Times are in nanoseconds. *)
Record Env := mkEnv {
  env_flag_parse : option Z;
  env_getenv : string -> string;
  env_open_file : string -> option string;
  env_sql_open : string -> string -> option string;
  env_listen : string -> option string;
  env_srv_shutdown : Z -> Z -> option string;
  env_pg : Z -> option (list Version);
  env_boot_time : Z
}.

(** ** Process state *)

Inductive Level :=
  PanicLevel | FatalLevel | ErrorLevel | WarnLevel | InfoLevel | DebugLevel | TraceLevel.

Definition level_rank (l : Level) : nat :=
  match l with
  | PanicLevel => 0 | FatalLevel => 1 | ErrorLevel => 2 | WarnLevel => 3
  | InfoLevel => 4 | DebugLevel => 5 | TraceLevel => 6
  end%nat.

Record Entry := mkEntry {
  e_level : Level;
  e_msg : string;
  e_fields : list (string * string)
}.

(** The object behind a [*sql.DB]. *)
Record SqlDB := mkSqlDB { db_driver : string; db_dsn : string; db_closed : bool }.

(** A [*bun.DB] embeds the [*sql.DB] it was built from: it holds the same
    pointer, not a copy of the object. *)
Record BunDB := mkBunDB { bun_sqldb : option nat; bun_dialect : string }.

(** The closure registered in [setupLogger]; it captures [logFile]. *)
Inductive ExitHandler := CloseLogFile (logFile : option nat).

(** ** net/http *)
Module http.

Record Request := mkRequest { Method : string; Path : string }.

(** [w_status] is [None] until the header has been written. *)
Record ResponseWriter := mkWriter {
  w_status : option Z;
  w_header : list (string * string);
  w_body : string
}.

Definition StatusOK : Z := 200.
Definition StatusMovedPermanently : Z := 301.
Definition StatusNotFound : Z := 404.
Definition StatusMethodNotAllowed : Z := 405.
Definition StatusInternalServerError : Z := 500.

Definition new_writer : ResponseWriter := mkWriter None [] "".

(** A second [WriteHeader] is superfluous and ignored. *)
Definition WriteHeader (code : Z) (w : ResponseWriter) : ResponseWriter :=
  match w_status w with
  | Some _ => w
  | None => mkWriter (Some code) (w_header w) (w_body w)
  end.

(** [Write] sends the header with status 200 when none was written. *)
Definition Write (b : string) (w : ResponseWriter) : ResponseWriter :=
  let w' := WriteHeader StatusOK w in
  mkWriter (w_status w') (w_header w') (w_body w' +:+ b).

(** Headers set after the header was written do not reach the client. *)
Definition Header_Set (k v : string) (w : ResponseWriter) : ResponseWriter :=
  match w_status w with
  | Some _ => w
  | None =>
      mkWriter None
        (filter (fun kv => negb (String.eqb (fst kv) k)) (w_header w) ++ [(k, v)])
        (w_body w)
  end.

Record Response := mkResponse {
  status : Z;
  header : list (string * string);
  body : string
}.

(** What the client receives once the handler returns. *)
Definition response_of (w : ResponseWriter) : Response :=
  mkResponse (default StatusOK (w_status w)) (w_header w) (w_body w).

(** What a handler can read of the database: the [sql.DB] objects of the
    process and the rows the server holds at the time of the request. *)
Record View := mkView { view_sqldbs : list SqlDB; view_pg : option (list Version) }.

(** A handler writes to [w] and submits log entries. *)
Definition Handler : Type := View -> ResponseWriter -> Request -> ResponseWriter * list Entry.

Definition Error (msg : string) (code : Z) (w : ResponseWriter) : ResponseWriter :=
  Write (msg +:+ String "010"%char "")
    (WriteHeader code
       (Header_Set "X-Content-Type-Options" "nosniff"
          (Header_Set "Content-Type" "text/plain; charset=utf-8" w))).

Definition NotFoundHandler : Handler :=
  fun _ w _ => (Error "404 page not found" StatusNotFound w, []).

Record Server := mkServer { Addr : string; srv_Handler : Handler }.

End http.

(** The server object of [main] and the goroutine started on it. *)
Inductive SrvState :=
| SrvNew
| SrvListening (server : http.Server)
| SrvBindFailed (err : string)
| SrvShutdown (deadline : Z).

Record Proc := mkProc {
  log_level : Level;
  log_out : list Entry;
  log_handlers : list ExitHandler;
  files : list bool;
  sqldbs : list SqlDB;
  srv : SrvState;
  sigchan : option (list Signal);
  clock : Z
}.

Definition set_log_level (l : Level) (p : Proc) : Proc :=
  mkProc l (log_out p) (log_handlers p) (files p) (sqldbs p) (srv p) (sigchan p) (clock p).
Definition set_log_out (o : list Entry) (p : Proc) : Proc :=
  mkProc (log_level p) o (log_handlers p) (files p) (sqldbs p) (srv p) (sigchan p) (clock p).
Definition set_log_handlers (h : list ExitHandler) (p : Proc) : Proc :=
  mkProc (log_level p) (log_out p) h (files p) (sqldbs p) (srv p) (sigchan p) (clock p).
Definition set_files (f : list bool) (p : Proc) : Proc :=
  mkProc (log_level p) (log_out p) (log_handlers p) f (sqldbs p) (srv p) (sigchan p) (clock p).
Definition set_sqldbs (d : list SqlDB) (p : Proc) : Proc :=
  mkProc (log_level p) (log_out p) (log_handlers p) (files p) d (srv p) (sigchan p) (clock p).
Definition set_srv (s : SrvState) (p : Proc) : Proc :=
  mkProc (log_level p) (log_out p) (log_handlers p) (files p) (sqldbs p) s (sigchan p) (clock p).
Definition set_sigchan (c : option (list Signal)) (p : Proc) : Proc :=
  mkProc (log_level p) (log_out p) (log_handlers p) (files p) (sqldbs p) (srv p) c (clock p).
Definition set_clock (t : Z) (p : Proc) : Proc :=
  mkProc (log_level p) (log_out p) (log_handlers p) (files p) (sqldbs p) (srv p) (sigchan p) t.

(** The process as the runtime starts it: logrus at its default level,
    nothing opened, no signal channel registered. *)
Definition init_proc (env : Env) : Proc :=
  mkProc InfoLevel [] [] [] [] SrvNew None (env_boot_time env).

(** ** The monad of the main goroutine *)

(** A call returns, ends the process through [os.Exit], panics, or
    blocks in a receive on the signal channel; [k] is the rest of the
    goroutine, run with the received value once there is one. *)
Inductive Res (A : Type) :=
| Ret (a : A) (p : Proc)
| Exited (code : Z) (p : Proc)
| Panicked (why : string) (p : Proc)
| Blocked (p : Proc) (k : Signal -> Proc -> Res A).
Arguments Ret {A} a p.
Arguments Exited {A} code p.
Arguments Panicked {A} why p.
Arguments Blocked {A} p k.

Definition Go (A : Type) : Type := Proc -> Res A.

Definition ret {A} (a : A) : Go A := fun p => Ret a p.

Fixpoint andThen {A B} (r : Res A) (f : A -> Go B) : Res B :=
  match r with
  | Ret a p => f a p
  | Exited c p => Exited c p
  | Panicked w p => Panicked w p
  | Blocked p k => Blocked p (fun v q => andThen (k v q) f)
  end.

Definition bind {A B} (m : Go A) (f : A -> Go B) : Go B := fun p => andThen (m p) f.

Definition modify (f : Proc -> Proc) : Go unit := fun p => Ret tt (f p).
Definition os_Exit {A} (code : Z) : Go A := fun p => Exited code p.
Definition panic {A} (why : string) : Go A := fun p => Panicked why p.
Definition when (b : bool) (m : Go unit) : Go unit := if b then m else ret tt.

Declare Scope go_scope.
Delimit Scope go_scope with go.
Notation "x <- m ;; k" := (bind m (fun x => k))
  (at level 90, m at level 89, right associativity) : go_scope.
Notation "m ;;; k" := (bind m (fun _ => k))
  (at level 90, right associativity) : go_scope.
Open Scope go_scope.

(** ** logrus *)
Module logrus.

Definition IsLevelEnabled (p : Proc) (l : Level) : bool :=
  (level_rank l <=? level_rank (log_level p))%nat.

Definition SetLevel (l : Level) : Go unit := modify (set_log_level l).

(** An entry reaches the output when its level is enabled.  The output
    set in [setupLogger] duplicates every entry to the console and to
    the log file; [log_out] is that one stream. *)
Definition write (e : Entry) (p : Proc) : Proc :=
  if IsLevelEnabled p (e_level e) then set_log_out (log_out p ++ [e]) p else p.

Definition Log (l : Level) (fields : list (string * string)) (msg : string) : Go unit :=
  modify (write (mkEntry l msg fields)).

Definition Infoln := Log InfoLevel [].
Definition Errorln := Log ErrorLevel [].
Definition WithError (err : string) : list (string * string) := [("error", err)].

Definition RegisterExitHandler (h : ExitHandler) : Go unit :=
  modify (fun p => set_log_handlers (log_handlers p ++ [h]) p).

(** [Close] on the [os.File] object at [fd]. *)
Definition file_Close (fd : nat) (p : Proc) : Proc := set_files (<[fd := false]> (files p)) p.

Definition runHandler (h : ExitHandler) (p : Proc) : Proc :=
  match h with
  | CloseLogFile None => p
  | CloseLogFile (Some fd) => file_Close fd p
  end.

Definition runHandlers (p : Proc) : Proc :=
  fold_left (fun q h => runHandler h q) (log_handlers p) p.

Definition Exit {A} (code : Z) : Go A :=
  modify runHandlers ;;; os_Exit code.

Definition Fatalf {A} (msg : string) : Go A :=
  Log FatalLevel [] msg ;;; Exit 1.

End logrus.

(** ** database/sql and bun *)
Module sql.

Definition errDBClosed : string := "sql: database is closed".

(** [sql.Open]: on success a new object is allocated and its pointer
    returned; on failure the pointer is nil. *)
Definition Open (env : Env) (driver dsn : string) : Go (option nat * option string) :=
  match env_sql_open env driver dsn with
  | Some e => ret (None, Some e)
  | None => fun p =>
      Ret (Some (List.length (sqldbs p)), None)
        (set_sqldbs (sqldbs p ++ [mkSqlDB driver dsn false]) p)
  end.

Definition close_obj (d : SqlDB) : SqlDB := mkSqlDB (db_driver d) (db_dsn d) true.

(** [Close] through a nil pointer dereferences it and panics. *)
Definition Close (db : option nat) : Go (option string) :=
  match db with
  | None => panic "invalid memory address or nil pointer dereference"
  | Some ptr => modify (fun p => set_sqldbs (alter close_obj ptr (sqldbs p)) p) ;;; ret None
  end.

(** A query through the pointer [db], against the objects [dbs] and the
    rows the server would answer ([None]: the server cannot be reached). *)
Definition Query (dbs : list SqlDB) (db : option nat) (server : option (list Version))
  : string + list Version :=
  match db with
  | None => inl "invalid memory address or nil pointer dereference"
  | Some ptr =>
      match dbs !! ptr with
      | None => inl "invalid memory address or nil pointer dereference"
      | Some d =>
          if db_closed d then inl errDBClosed
          else match server with
               | None => inl "connection refused"
               | Some rows => inr rows
               end
      end
  end.

End sql.

Module bun.
Definition NewDB (sqldb : option nat) (dialect : string) : BunDB := mkBunDB sqldb dialect.
End bun.


(** ** path *)
Module path.

Fixpoint splitSlash (s : string) : list string :=
  match s with
  | EmptyString => [""]
  | String c s' =>
      if Ascii.eqb c "/"%char then "" :: splitSlash s'
      else match splitSlash s' with
           | x :: xs => String c x :: xs
           | [] => [String c ""]
           end
  end.

Fixpoint joinSlash (l : list string) : string :=
  match l with
  | [] => ""
  | [x] => x
  | x :: xs => x +:+ "/" +:+ joinSlash xs
  end.

(** One path element against the elements kept so far (innermost first). *)
Definition step (rooted : bool) (stack : list string) (elem : string) : list string :=
  if String.eqb elem "" || String.eqb elem "." then stack
  else if String.eqb elem ".." then
    match stack with
    | [] => if rooted then [] else [".."]
    | top :: rest =>
        if rooted then rest
        else if String.eqb top ".." then ".." :: stack else rest
    end
  else elem :: stack.

(** [path.Clean]: slashes collapsed, [.] elements dropped, [..]
    elements resolved against the element before them, and dropped at
    the root of a rooted path. *)
Definition Clean (p : string) : string :=
  if String.eqb p "" then "."
  else
    let rooted := String.prefix "/" p in
    let out := joinSlash (rev (fold_left (step rooted) (splitSlash p) [])) in
    if rooted then "/" +:+ out
    else if String.eqb out "" then "." else out.

End path.

(** ** gorilla/mux *)
Module mux.

Inductive matchErr := ErrMethodMismatch | ErrNotFound.

(** The part of [RouteMatch] that decides the response. *)
Record RouteMatch := mkMatch {
  m_Handler : option http.Handler;
  m_MatchErr : option matchErr
}.

Definition set_Handler (h : option http.Handler) (m : RouteMatch) := mkMatch h (m_MatchErr m).
Definition set_MatchErr (e : option matchErr) (m : RouteMatch) := mkMatch (m_Handler m) e.

(** A route's matchers.  [pathRegexp] is the regular expression built
    from a template without variables: the quoted template anchored at
    the start, and at the end too unless it is a prefix. *)
Inductive matcher :=
| pathRegexp (isPrefix : bool) (template : string)
| methodMatcher (methods : list string)
| subrouter (rt : Router)
with Route :=
| mkRoute (err buildOnly : bool) (matchers : list matcher)
    (path : option string) (handler : option http.Handler)
with Router :=
| mkRouter (routes : list Route) (conf_matchers : list matcher) (conf_path : option string)
    (NotFoundHandler MethodNotAllowedHandler : option http.Handler).

Definition isMethodMatcher (m : matcher) : bool :=
  match m with methodMatcher _ => true | _ => false end.

Definition isErr (e : matchErr) (o : option matchErr) : bool :=
  match o, e with
  | Some ErrMethodMismatch, ErrMethodMismatch => true
  | Some ErrNotFound, ErrNotFound => true
  | _, _ => false
  end.

(** After the matchers of a route all matched (a failed method matcher
    only sets [err]). *)
Definition Route_matched (h : option http.Handler) (err : option matchErr) (m : RouteMatch)
  : bool * RouteMatch :=
  match err with
  | Some e => (false, set_MatchErr (Some e) m)
  | None =>
      let m1 :=
        if isErr ErrMethodMismatch (m_MatchErr m) && bool_decide (is_Some h)
        then set_Handler h (set_MatchErr None m) else m in
      let m2 := match m_Handler m1 with None => set_Handler h m1 | Some _ => m1 end in
      (true, m2)
  end.

(** After the routes of a router all failed to match. *)
Definition Router_unmatched (nf mna : option http.Handler) (m : RouteMatch)
  : bool * RouteMatch :=
  if isErr ErrMethodMismatch (m_MatchErr m) then
    match mna with
    | Some h => (true, set_Handler (Some h) m)
    | None => (false, m)
    end
  else
    match nf with
    | Some h => (true, set_MatchErr (Some ErrNotFound) (set_Handler (Some h) m))
    | None => (false, set_MatchErr (Some ErrNotFound) m)
    end.

Fixpoint matcher_Match (mt : matcher) (req : http.Request) (m : RouteMatch)
  {struct mt} : bool * RouteMatch :=
  match mt with
  | pathRegexp isPrefix tpl =>
      (if isPrefix then String.prefix tpl (http.Path req)
       else String.eqb (http.Path req) tpl, m)
  | methodMatcher ms => (existsb (String.eqb (http.Method req)) ms, m)
  | subrouter rt => Router_Match rt req m
  end
with Route_Match (r : Route) (req : http.Request) (m : RouteMatch)
  {struct r} : bool * RouteMatch :=
  match r with
  | mkRoute err buildOnly matchers _ h =>
      if buildOnly || err then (false, m)
      else
        (fix each (l : list matcher) (e : option matchErr) (m : RouteMatch)
           : bool * RouteMatch :=
           match l with
           | [] => Route_matched h e m
           | mt :: l' =>
               match matcher_Match mt req m with
               | (true, m') => each l' e m'
               | (false, m') =>
                   if isMethodMatcher mt then each l' (Some ErrMethodMismatch) m'
                   else
                     (false,
                      if isErr ErrNotFound (m_MatchErr m') then set_MatchErr None m' else m')
               end
           end) matchers None m
  end
with Router_Match (rt : Router) (req : http.Request) (m : RouteMatch)
  {struct rt} : bool * RouteMatch :=
  match rt with
  | mkRouter rs _ _ nf mna =>
      (fix each (l : list Route) (m : RouteMatch) : bool * RouteMatch :=
         match l with
         | [] => Router_unmatched nf mna m
         | r :: l' =>
             match Route_Match r req m with
             | (true, m') => (true, m')
             | (false, m') => each l' m'
             end
         end) rs m
  end.

(** *** Building routes.  Go mutates the route and router objects in
    place; here each call returns the updated object and [addRoute]
    puts a finished route into its router, in the order of the
    [NewRoute] calls. *)

Definition NewRouter : Router := mkRouter [] [] None None None.

Definition NewRoute (rt : Router) : Route :=
  match rt with mkRouter _ cm cp _ _ => mkRoute false false cm cp None end.

Definition addRoute (r : Route) (rt : Router) : Router :=
  match rt with mkRouter rs cm cp nf mna => mkRouter (rs ++ [r]) cm cp nf mna end.

Definition set_NotFoundHandler (h : option http.Handler) (rt : Router) : Router :=
  match rt with mkRouter rs cm cp _ mna => mkRouter rs cm cp h mna end.

Definition BuildOnly (r : Route) : Route :=
  match r with mkRoute e _ ms p h => mkRoute e true ms p h end.

Definition HandlerFunc (f : http.Handler) (r : Route) : Route :=
  match r with mkRoute e b ms p h => if e then r else mkRoute e b ms p (Some f) end.

Definition GetHandler (r : Route) : option http.Handler :=
  match r with mkRoute _ _ _ _ h => h end.

Definition addMatcher (m : matcher) (r : Route) : Route :=
  match r with mkRoute e b ms p h => if e then r else mkRoute e b (ms ++ [m]) p h end.

(** [strings.TrimRight(s, "/")]. *)
Fixpoint trimRightSlash (s : string) : string :=
  match s with
  | EmptyString => EmptyString
  | String c s' =>
      let t := trimRightSlash s' in
      if Ascii.eqb c "/"%char && String.eqb t "" then "" else String c t
  end.

Definition startsWithSlash (tpl : string) : bool :=
  match tpl with
  | EmptyString => true
  | String c _ => Ascii.eqb c "/"%char
  end.

Definition addRegexpMatcher (tpl : string) (isPrefix : bool) (r : Route) : Route :=
  match r with
  | mkRoute e b ms p h =>
      if e then r
      else if negb (startsWithSlash tpl) then mkRoute true b ms p h
      else
        let tpl' := match p with
                    | Some t => trimRightSlash t +:+ tpl
                    | None => tpl
                    end in
        mkRoute false b (ms ++ [pathRegexp isPrefix tpl']) (Some tpl') h
  end.

Definition Path (tpl : string) : Route -> Route := addRegexpMatcher tpl false.
Definition PathPrefix (tpl : string) : Route -> Route := addRegexpMatcher tpl true.

Definition upper (c : ascii) : ascii :=
  let n := nat_of_ascii c in
  if ((97 <=? n) && (n <=? 122))%nat then ascii_of_nat (n - 32) else c.

Fixpoint ToUpper (s : string) : string :=
  match s with
  | EmptyString => EmptyString
  | String c s' => String (upper c) (ToUpper s')
  end.

Definition Methods (methods : list string) : Route -> Route :=
  addMatcher (methodMatcher (map ToUpper methods)).

(** [HandleFunc] on a router: the new route, still to be added. *)
Definition HandleFunc (rt : Router) (tpl : string) (f : http.Handler) : Route :=
  HandlerFunc f (Path tpl (NewRoute rt)).

(** [Subrouter] copies the configuration of the route into a new
    router and makes that router a matcher of the route.  The route
    holds a pointer to it, so routes added to the subrouter later are
    seen through the route: [withSubrouter] is applied to the subrouter
    as it is when construction ends. *)
Definition Subrouter (r : Route) : Router :=
  match r with mkRoute _ _ ms p _ => mkRouter [] ms p None None end.

Definition withSubrouter (sub : Router) : Route -> Route := addMatcher (subrouter sub).

Definition hasSuffixSlash (p : string) : bool :=
  match String.get (String.length p - 1)%nat p with
  | Some c => Ascii.eqb c "/"%char
  | None => false
  end.

(** [cleanPath]: the canonical form of a request path. *)
Definition cleanPath (p : string) : string :=
  if String.eqb p "" then "/"
  else
    let p := if String.prefix "/" p then p else "/" +:+ p in
    let np := path.Clean p in
    if hasSuffixSlash p && negb (String.eqb np "/") then np +:+ "/" else np.

Definition methodNotAllowedHandler : http.Handler :=
  fun _ w _ => (http.WriteHeader http.StatusMethodNotAllowed w, []).

(** [(r *Router) ServeHTTP], for a router that keeps the default
    [skipClean = false]: a path that is not canonical is answered with
    a redirect to its canonical form, before any route is tried. *)
Definition ServeHTTP (r : Router) : http.Handler :=
  fun view w req =>
    let p := cleanPath (http.Path req) in
    if negb (String.eqb p (http.Path req)) then
      (http.WriteHeader http.StatusMovedPermanently (http.Header_Set "Location" p w), [])
    else
      let '(ok, m) := Router_Match r req (mkMatch None None) in
      let handler := if ok then m_Handler m else None in
      let handler :=
        match handler with
        | None =>
            if isErr ErrMethodMismatch (m_MatchErr m)
            then Some methodNotAllowedHandler else None
        | Some h => Some h
        end in
      default http.NotFoundHandler handler view w req.

End mux.

(** ** The parts of package [main] that live in other files *)

(** Modelled from the spec: [requestLog], the logger entry the middleware
    writes through, is not in [main.go].  The middleware "records method
    and path": the entry carries them as fields. *)
Definition requestLog (r : http.Request) : list (string * string) :=
  [("method", http.Method r); ("path", http.Path r)].

(** Modelled from the spec: [notFoundHandler] is not in [main.go].  It is
    the "fixed not found response with a 404-equivalent status". *)
Definition notFoundBody : string := "not found".
Definition notFoundHandler : http.Handler :=
  fun _ w _ => (http.Write notFoundBody (http.WriteHeader http.StatusNotFound w), []).

(** Modelled from the spec: the repository type [PgVersionRepo] and the
    controller type [VersionController] are built in [main.go] but
    declared elsewhere, with their methods. *)
Record PgVersionRepo := mkPgVersionRepo { DB : BunDB }.
Record VersionController := mkVersionController { Repo : PgVersionRepo }.

Inductive StorageError := mkStorageError (cause : string).

(** [newer a b]: [a] is at least as recent as [b]. *)
Definition newer (a b : Version) : Prop := released b <= released a.

#[global] Instance newer_dec : RelDecision newer.
Proof. intros a b. unfold newer. apply _. Defined.

#[global] Instance newer_trans : Transitive newer.
Proof. intros a b c. unfold newer. lia. Qed.

#[global] Instance newer_total : Total newer.
Proof. intros a b. unfold newer. lia. Qed.

(** Modelled from the spec: "fetch latest versions" "queries the store for
    version records ordered by recency and returns an ordered sequence of
    Version entities (finite, newest first)"; "on query failure (connection
    lost, query error), the operation fails with a StorageError carrying
    the underlying cause". *)
Definition LatestVersions (repo : PgVersionRepo) (view : http.View)
  : StorageError + list Version :=
  match sql.Query (http.view_sqldbs view) (bun_sqldb (DB repo)) (http.view_pg view) with
  | inl e => inl (mkStorageError e)
  | inr rows => inr (merge_sort newer rows)
  end.

Definition dquote : string := String "034"%char "".

(** Modelled from the spec: the sequence is serialized in its order; the
    spec shows it as a bracketed list of quoted identifiers. *)
Definition serialize (vs : list Version) : string :=
  "[" +:+ String.concat "," (map (fun v => dquote +:+ identifier v +:+ dquote) vs) +:+ "]".

Definition diagnosticBody : string := "internal server error".

(** Modelled from the spec: "serve latest versions" "calls the Repository;
    on success, serializes the resulting sequence to the response body and
    sets a success status; on StorageError, writes a server-error status
    and a diagnostic body, and logs the failure", with "one log entry per
    request outcome (success or failure)". *)
Definition ServeLatestVersions (c : VersionController) : http.Handler :=
  fun view w r =>
    match LatestVersions (Repo c) view with
    | inr versions =>
        (http.Write (serialize versions) (http.WriteHeader http.StatusOK w),
         [mkEntry InfoLevel "Served latest versions." (requestLog r)])
    | inl (mkStorageError cause) =>
        (http.Write diagnosticBody (http.WriteHeader http.StatusInternalServerError w),
         [mkEntry ErrorLevel "Fetching latest versions failed." (logrus.WithError cause)])
    end.

(** ** os/signal, context, time *)
Module signal.

(** [c := make(chan os.Signal, 1); signal.Notify(c, os.Interrupt)]. *)
Definition Notify : Go unit := modify (set_sigchan (Some [])).

(** Signals that end a Go process when nothing is registered for them. *)
Definition fatal (s : Signal) : bool :=
  match s with SIGCHLD => false | _ => true end.

(** The runtime relays an interrupt to the registered channel with a
    send that does not block: a signal that finds the buffer full is
    dropped.  [None]: the signal is not relayed and has its default
    effect. *)
Definition deliver (s : Signal) (p : Proc) : option Proc :=
  match sigchan p, s with
  | Some buf, SIGINT =>
      Some (if (List.length buf <? 1)%nat then set_sigchan (Some (buf ++ [s])) p else p)
  | _, _ => None
  end.

(** What a receive takes from the buffer; [None] when it is empty. *)
Definition recv (p : Proc) : option (Signal * Proc) :=
  match sigchan p with
  | Some (s :: rest) => Some (s, set_sigchan (Some rest) p)
  | _ => None
  end.

(** The receive [<-c] on the registered channel: it returns the buffered
    signal, or blocks until one is relayed. *)
Definition receive : Go Signal :=
  fun p =>
    match recv p with
    | Some (v, p') => Ret v p'
    | None => Blocked p (fun v q => Ret v q)
    end.

End signal.

Definition time_Second : Z := 1000000000.

Module context.
Record Context := mkContext { deadline : Z }.

(** [context.WithTimeout(context.Background(), d)]. *)
Definition WithTimeout (d : Z) : Go Context :=
  fun p => Ret (mkContext (clock p + d)) p.
End context.

(** ** The process and its environment *)

Inductive End := ExitStatus (code : Z) | Panic (why : string) | KilledBy (sig : Signal).

(** [Waiting k]: [main] is blocked in a receive, with [k] left to run,
    while the server goroutine runs. *)
Inductive Phase :=
| Waiting (k : Signal -> Proc -> Res unit)
| Ended (how : End).

Record Sys := mkSys {
  phase : Phase;
  proc : Proc;
  sent : list (http.Request * http.Response)
}.

Inductive Event :=
| EvSignal (s : Signal)
| EvRequest (r : http.Request)
| EvTick (d : N).

#[global] Instance Request_eq_dec : EqDecision http.Request.
Proof. solve_decision. Defined.

#[global] Instance Event_eq_dec : EqDecision Event.
Proof. solve_decision. Defined.

(** ** [main.go] *)

Definition logPath : string := "log.txt".

Section Program.

Variable env : Env.

(** [os.OpenFile]: on success a new file object, open. *)
Definition os_OpenFile (name : string) : Go (option nat * option string) :=
  match env_open_file env name with
  | Some e => ret (None, Some e)
  | None => fun p => Ret (Some (List.length (files p)), None) (set_files (files p ++ [true]) p)
  end.

Definition setupLogger (verbose : bool) : Go unit :=
  when verbose (logrus.SetLevel DebugLevel) ;;;
  r <- os_OpenFile logPath ;;
  let '(logFile, err) := r in
  match err with
  | Some e =>
      logrus.Fatalf ("Failed to open log file " +:+ logPath +:+ " for output: " +:+ e)
  | None => ret tt
  end ;;;
  logrus.RegisterExitHandler (CloseLogFile logFile).

Definition logHandler (next : http.Handler) : http.Handler :=
  fun view w r =>
    let entry := mkEntry InfoLevel "Handling request." (requestLog r) in
    let '(w', entries) := next view w r in
    (w', entry :: entries).

(** The deferred [sqldb.Close()] runs once the result value has been
    computed, before [openDb] returns to its caller. *)
Definition openDb (pgDsn : string) : Go BunDB :=
  r <- sql.Open env "pg" pgDsn ;;
  let '(sqldb, err) := r in
  match err with
  | Some e => logrus.Log ErrorLevel (logrus.WithError e) "Database open failed."
  | None => ret tt
  end ;;;
  let result := bun.NewDB sqldb "pg" in
  sql.Close sqldb ;;;
  ret result.

Definition createHttpHandler (db : BunDB) : http.Handler :=
  let router := mux.NewRouter in
  let notFoundRoute := mux.HandlerFunc notFoundHandler (mux.BuildOnly (mux.NewRoute router)) in
  let router := mux.addRoute notFoundRoute router in
  let router := mux.set_NotFoundHandler (mux.GetHandler notFoundRoute) router in
  let router :=
    mux.addRoute (mux.HandleFunc router "/" (fun _ w _ => (http.Write "dzialam" w, []))) router in
  let versionRoute := mux.PathPrefix "/version" (mux.NewRoute router) in
  let versionRouter := mux.Subrouter versionRoute in
  let versionController := mkVersionController (mkPgVersionRepo db) in
  let versionRouter :=
    mux.addRoute
      (mux.Methods ["GET"]
         (mux.HandleFunc versionRouter "/latest" (ServeLatestVersions versionController)))
      versionRouter in
  let router := mux.addRoute (mux.withSubrouter versionRouter versionRoute) router in
  logHandler (mux.ServeHTTP router).

(** [go server.ListenAndServe()]: the goroutine binds the address and
    serves; what [ListenAndServe] returns is dropped by the [go]
    statement. *)
Definition go_ListenAndServe (server : http.Server) : Go unit :=
  modify (fun p =>
    set_srv (match env_listen env (http.Addr server) with
             | None => SrvListening server
             | Some e => SrvBindFailed e
             end) p).

Definition awaitInterruption : Go unit :=
  signal.Notify ;;;
  _ <- signal.receive ;;
  ret tt.

Definition server_Shutdown (ctx : context.Context) (server : http.Server)
  : Go (option string) :=
  fun p =>
    Ret (env_srv_shutdown env (clock p) (context.deadline ctx))
      (set_srv (SrvShutdown (context.deadline ctx)) p).

Definition shutdown (ctx : context.Context) (server : http.Server) : Go unit :=
  err <- server_Shutdown ctx server ;;
  match err with
  | Some e => logrus.Log WarnLevel (logrus.WithError e) "Http server shutdown failed."
  | None => ret tt
  end ;;;
  logrus.Exit 0.

Definition flag_Parse : Go unit :=
  match env_flag_parse env with
  | Some code => os_Exit code
  | None => ret tt
  end.

(** The deferred [cancel] never runs: [shutdown] ends the process. *)
Definition main : Go unit :=
  flag_Parse ;;;
  setupLogger (String.eqb (env_getenv env "verbose") "true") ;;;
  logrus.Infoln "Starting backend." ;;;
  let pgDsn := env_getenv env "POSTGRES_DSN" in
  when (String.eqb pgDsn "")
    (logrus.Errorln "Environment variable POSTGRES_DSN is not set!") ;;;
  logrus.Infoln "Opening database." ;;;
  db <- openDb pgDsn ;;
  logrus.Infoln "Creating http handler." ;;;
  let h := createHttpHandler db in
  let server := http.mkServer "127.0.0.1:2137" h in
  go_ListenAndServe server ;;;
  logrus.Infoln "Starting listening... To shut down use ^C" ;;;
  awaitInterruption ;;;
  logrus.Infoln "Shutting down..." ;;;
  ctx <- context.WithTimeout (10 * time_Second) ;;
  shutdown ctx server.

(** *** The process among its events *)

(** Where a run of [main] leaves the process.  A return from [main] ends
    the process with status 0. *)
Definition settle (r : Res unit) (sent : list (http.Request * http.Response)) : Sys :=
  match r with
  | Ret _ p => mkSys (Ended (ExitStatus 0)) p sent
  | Exited c p => mkSys (Ended (ExitStatus c)) p sent
  | Panicked w p => mkSys (Ended (Panic w)) p sent
  | Blocked p k => mkSys (Waiting k) p sent
  end.

(** The process from its start until [main] blocks in the receive or
    the process ends.  Events are taken from that moment on: the steps
    before it are straight-line code, and a signal that arrives before
    [signal.Notify] has its default effect, with no part of [main] run
    in response. *)
Definition boot : Sys := settle (main (init_proc env)) [].

(** The serving goroutine answers one request. *)
Definition serve (r : http.Request) (s : Sys) : Sys :=
  match srv (proc s) with
  | SrvListening server =>
      let view := http.mkView (sqldbs (proc s)) (env_pg env (clock (proc s))) in
      let '(w, entries) := http.srv_Handler server view http.new_writer r in
      mkSys (phase s)
        (fold_left (fun q e => logrus.write e q) entries (proc s))
        (sent s ++ [(r, http.response_of w)])
  | _ => s
  end.

(** One event.  A signal relayed to the channel while [main] is blocked
    in the receive is taken by the receive, and [main] runs on. *)
Definition step (s : Sys) (e : Event) : Sys :=
  match phase s with
  | Ended _ => s
  | Waiting k =>
      match e with
      | EvTick d => mkSys (phase s) (set_clock (clock (proc s) + Z.of_N d) (proc s)) (sent s)
      | EvRequest r => serve r s
      | EvSignal sig =>
          match signal.deliver sig (proc s) with
          | None =>
              if signal.fatal sig then mkSys (Ended (KilledBy sig)) (proc s) (sent s) else s
          | Some p =>
              match signal.recv p with
              | Some (v, p') => settle (k v p') (sent s)
              | None => mkSys (phase s) p (sent s)
              end
          end
      end
  end.

Definition run (events : list Event) : Sys := fold_left step events boot.

End Program.

(** ** Vocabulary of the properties *)

(** The routing decision of [createHttpHandler], written out as a table.
    [createHttpHandler_dispatch] below proves that the router built in
    [createHttpHandler] decides exactly so. *)
Definition dispatch (db : BunDB) : http.Handler :=
  fun view w r =>
    let p := http.Path r in
    if negb (String.eqb (mux.cleanPath p) p) then
      (http.WriteHeader http.StatusMovedPermanently
         (http.Header_Set "Location" (mux.cleanPath p) w), [])
    else if String.eqb p "/" then (http.Write "dzialam" w, [])
    else if String.eqb p "/version/latest" then
      if String.eqb (http.Method r) "GET"
      then ServeLatestVersions (mkVersionController (mkPgVersionRepo db)) view w r
      else (http.WriteHeader http.StatusMethodNotAllowed w, [])
    else notFoundHandler view w r.

Definition handlingEntry (r : http.Request) : Entry :=
  mkEntry InfoLevel "Handling request." [("method", http.Method r); ("path", http.Path r)].

Definition isHandling (e : Entry) : bool := String.eqb (e_msg e) "Handling request.".

(** What the client of a fresh connection receives from handler [h]. *)
Definition respond (h : http.Handler) (view : http.View) (r : http.Request) : http.Response :=
  http.response_of (fst (h view http.new_writer r)).


Definition three_versions : list Version :=
  [mkVersion "1.2.0" 30; mkVersion "1.1.0" 20; mkVersion "1.0.0" 10].

Definition listenAddr : string := "127.0.0.1:2137".

Definition theServer : http.Server :=
  http.mkServer listenAddr (createHttpHandler (mkBunDB (Some 0%nat) "pg")).

Definition is_waiting (s : Sys) : bool :=
  match phase s with Waiting _ => true | Ended _ => false end.

(** What is left of [main] once [awaitInterruption] has returned. *)
Definition after_interruption (env : Env) : Go unit :=
  logrus.Infoln "Shutting down..." ;;;
  ctx <- context.WithTimeout (10 * time_Second) ;;
  shutdown env ctx theServer.

(** What holds of the process whenever [main] is blocked in the receive:
    what is left to run is the end of [main], the logger is set up with
    the log file open and its closing registered, the one database
    handle is closed, the channel is registered and empty, and the
    server listens unless binding failed. *)
Record waiting_inv (env : Env) (s : Sys) : Prop := mkWaitingInv {
  inv_main :
    exists k, phase s = Waiting k /\ forall v q, k v q = after_interruption env q;
  inv_level : logrus.IsLevelEnabled (proc s) InfoLevel = true;
  inv_handlers : log_handlers (proc s) = [CloseLogFile (Some 0%nat)];
  inv_files : files (proc s) = [true];
  inv_sqldbs : sqldbs (proc s) = [mkSqlDB "pg" (env_getenv env "POSTGRES_DSN") true];
  inv_chan : sigchan (proc s) = Some [];
  inv_srv :
    srv (proc s) = match env_listen env listenAddr with
                   | None => SrvListening theServer
                   | Some e => SrvBindFailed e
                   end
}.

(** Log entries only ever extend [log_out]. *)
Definition same_but_log (p q : Proc) : Prop :=
  log_level q = log_level p /\ log_handlers q = log_handlers p /\ files q = files p
  /\ sqldbs q = sqldbs p /\ srv q = srv p /\ sigchan q = sigchan p /\ clock q = clock p.

Definition shuttingDownEntry : Entry := mkEntry InfoLevel "Shutting down..." [].
Definition shutdownFailedEntry (e : string) : Entry :=
  mkEntry WarnLevel "Http server shutdown failed." [("error", e)].

Definition env_sample : Env :=
  mkEnv None
    (fun k => if String.eqb k "POSTGRES_DSN" then "postgres://app@localhost/app" else "")
    (fun _ => None) (fun _ _ => None) (fun _ => None)
    (fun _ _ => Some "context deadline exceeded")
    (fun _ => Some three_versions) 0.

(** The port is already taken: binding the listening address fails. *)
Definition env_port_taken : Env :=
  mkEnv None
    (fun k => if String.eqb k "POSTGRES_DSN" then "postgres://app@localhost/app" else "")
    (fun _ => None) (fun _ _ => None)
    (fun _ => Some "listen tcp 127.0.0.1:2137: bind: address already in use")
    (fun _ _ => None)
    (fun _ => Some three_versions) 0.

Definition fetchFailedEntry (cause : string) : Entry :=
  mkEntry ErrorLevel "Fetching latest versions failed." [("error", cause)].

(** The level [setupLogger] leaves the logger at. *)
Definition verbose_level (env : Env) : Level :=
  if String.eqb (env_getenv env "verbose") "true" then DebugLevel else InfoLevel.

(** What [main] has logged when it calls [openDb]. *)
Definition startup_log (env : Env) : list Entry :=
  mkEntry InfoLevel "Starting backend." []
  :: (if String.eqb (env_getenv env "POSTGRES_DSN") ""
      then [mkEntry ErrorLevel "Environment variable POSTGRES_DSN is not set!" []]
      else [])
  ++ [mkEntry InfoLevel "Opening database." []].

(** What [main] logs between [openDb] and [awaitInterruption]. *)
Definition listening_log : list Entry :=
  [mkEntry InfoLevel "Creating http handler." [];
   mkEntry InfoLevel "Starting listening... To shut down use ^C" []].

Definition logFileFatalEntry (e : string) : Entry :=
  mkEntry FatalLevel ("Failed to open log file log.txt for output: " +:+ e) [].

Definition dbOpenFailedEntry (e : string) : Entry :=
  mkEntry ErrorLevel "Database open failed." [("error", e)].


(** The log file cannot be opened. *)
Definition env_no_log_file : Env :=
  mkEnv None (fun _ => "") (fun _ => Some "permission denied")
    (fun _ _ => None) (fun _ => None) (fun _ _ => None) (fun _ => None) 0.

(** [sql.Open] fails. *)
Definition env_no_driver : Env :=
  mkEnv None (fun _ => "") (fun _ => None)
    (fun _ _ => Some "sql: unknown driver") (fun _ => None) (fun _ _ => None)
    (fun _ => None) 0.

(** * Properties *)

(** ** The model on concrete inputs *)

Example Clean_table :
  map path.Clean
    ["abc//def//ghi"; "/abc/def/../../.."; "abc/./../def"; "../../abc"; ""; "/../abc"; "abc/"]
  = ["abc/def/ghi"; "/"; "def"; "../../abc"; "."; "/abc"; "abc"].
Proof. reflexivity. Qed.

Example cleanPath_table :
  map mux.cleanPath ["/"; "/version/latest"; "/version/latest/"; "//"; "/a/./b"; "*"; ""]
  = ["/"; "/version/latest"; "/version/latest/"; "/"; "/a/b"; "/*"; "/"].
Proof. reflexivity. Qed.

Example route_post_latest :
  respond (createHttpHandler (mkBunDB (Some 0%nat) "pg")) (http.mkView [] None)
    (http.mkRequest "POST" "/version/latest")
  = http.mkResponse http.StatusMethodNotAllowed [] "".
Proof. reflexivity. Qed.

Example route_prefix_only :
  respond (createHttpHandler (mkBunDB (Some 0%nat) "pg")) (http.mkView [] None)
    (http.mkRequest "GET" "/versions")
  = http.mkResponse http.StatusNotFound [] notFoundBody.
Proof. reflexivity. Qed.

Example route_latest_closed_handle :
  respond (createHttpHandler (mkBunDB (Some 0%nat) "pg"))
    (http.mkView [mkSqlDB "pg" "postgres://db" true] (Some three_versions))
    (http.mkRequest "GET" "/version/latest")
  = http.mkResponse http.StatusInternalServerError [] diagnosticBody.
Proof. reflexivity. Qed.

Example boot_without_log_file :
  phase (boot (mkEnv None (fun _ => "") (fun _ => Some "permission denied")
                 (fun _ _ => None) (fun _ => None) (fun _ _ => None) (fun _ => None) 0))
  = Ended (ExitStatus 1).
Proof. reflexivity. Qed.

Example boot_without_database_handle :
  phase (boot (mkEnv None (fun _ => "") (fun _ => None)
                 (fun _ _ => Some "unknown driver") (fun _ => None) (fun _ _ => None)
                 (fun _ => None) 0))
  = Ended (Panic "invalid memory address or nil pointer dereference").
Proof. reflexivity. Qed.

Example run_sample :
  let s := run env_sample
             [EvRequest (http.mkRequest "GET" "/"); EvSignal SIGINT;
              EvRequest (http.mkRequest "GET" "/")] in
  phase s = Ended (ExitStatus 0)
  /\ map snd (sent s) = [http.mkResponse http.StatusOK [] "dzialam"]
  /\ files (proc s) = [false].
Proof. repeat split; reflexivity. Qed.

(** ** Routing *)

Lemma createHttpHandler_dispatch db view w r :
  createHttpHandler db view w r =
  (fst (dispatch db view w r), handlingEntry r :: snd (dispatch db view w r)).
Proof.
  destruct r as [m p].
  unfold createHttpHandler, logHandler, dispatch, mux.ServeHTTP, handlingEntry.
  cbn [http.Path http.Method].
  destruct (negb (String.eqb (mux.cleanPath p) p)) eqn:Hc.
  { reflexivity. }
  cbn -[String.prefix ServeLatestVersions notFoundHandler mux.cleanPath mux.upper].
  change ("/version" +:+ "/latest") with "/version/latest".
  change (String (mux.upper "G") (String (mux.upper "E") (String (mux.upper "T") "")))
    with "GET".
  destruct (String.eqb_spec p "/") as [->|H1].
  { reflexivity. }
  destruct (String.eqb_spec p "/version/latest") as [->|H2].
  { cbn. destruct (String.eqb m "GET"); cbn.
    - destruct (ServeLatestVersions _ _ _ _); reflexivity.
    - reflexivity. }
  destruct (String.prefix "/version" p); cbn; reflexivity.
Qed.

Lemma eqb_neq_false (a b : string) : a ≠ b -> String.eqb a b = false.
Proof. intros H. destruct (String.eqb_spec a b); congruence. Qed.

Lemma ServeLatestVersions_entries c view w r :
  filter (fun e => isHandling e) (snd (ServeLatestVersions c view w r)) = [].
Proof.
  unfold ServeLatestVersions.
  destruct (LatestVersions (Repo c) view) as [[cause]|vs]; reflexivity.
Qed.

Lemma dispatch_entries db view w r :
  filter (fun e => isHandling e) (snd (dispatch db view w r)) = [].
Proof.
  unfold dispatch.
  repeat match goal with |- context [if ?b then _ else _] => destruct b end;
    try reflexivity.
  apply ServeLatestVersions_entries.
Qed.

(** ** Ordering of the versions *)


(** ** Claims about the request handlers *)


(** C8, as amended.  For every request whose path is in canonical form
    (the router's [cleanPath] leaves it unchanged) and is neither [/] nor
    [/version/latest], whatever its method, the response is the fixed
    not-found response with status 404. *)
Theorem unmatched_canonical_path_not_found db view r :
  mux.cleanPath (http.Path r) = http.Path r ->
  http.Path r <> "/" ->
  http.Path r <> "/version/latest" ->
  respond (createHttpHandler db) view r
  = http.mkResponse http.StatusNotFound [] notFoundBody.
Proof.
  intros Hc H1 H2. unfold respond.
  rewrite createHttpHandler_dispatch. cbn [fst]. unfold dispatch.
  rewrite Hc, String.eqb_refl. cbn [negb].
  rewrite (eqb_neq_false _ _ H1), (eqb_neq_false _ _ H2).
  reflexivity.
Qed.

Lemma unmatched_canonical_path_not_found_witness :
  respond (createHttpHandler (mkBunDB None "pg")) (http.mkView [] None)
    (http.mkRequest "DELETE" "/version/oldest")
  = http.mkResponse http.StatusNotFound [] notFoundBody.
Proof.
  apply unmatched_canonical_path_not_found; cbn [http.Path].
  - vm_compute. reflexivity.
  - discriminate.
  - discriminate.
Defined.

(** C8 as stated fails: the path [/a/../b] is neither [/] nor
    [/version/latest], and the router answers it with a redirect to
    [/b], status 301, not with the not-found response. *)
Lemma unmatched_path_redirected :
  let r := http.mkRequest "GET" "/a/../b" in
  http.Path r <> "/" /\ http.Path r <> "/version/latest" /\
  respond (createHttpHandler (mkBunDB None "pg")) (http.mkView [] None) r
  = http.mkResponse http.StatusMovedPermanently [("Location", "/b")] "" /\
  http.status (respond (createHttpHandler (mkBunDB None "pg")) (http.mkView [] None) r)
  <> http.StatusNotFound.
Proof.
  cbn zeta. split; [discriminate|]. split; [discriminate|].
  split; [vm_compute; reflexivity|]. vm_compute. discriminate.
Qed.

(** C9. A request for [/] is answered with status 200 and the body
    "dzialam", whatever the database handle and the database are: the
    handle may be nil, closed or open, the server reachable or not.  (The
    route carries no method restriction, so this holds for GET and for
    every other method.) *)
Theorem liveness_independent_of_database db view method :
  respond (createHttpHandler db) view (http.mkRequest method "/")
  = http.mkResponse http.StatusOK [] "dzialam".
Proof.
  unfold respond. rewrite createHttpHandler_dispatch. reflexivity.
Qed.

Lemma dispatch_latest db view w :
  dispatch db view w (http.mkRequest "GET" "/version/latest")
  = ServeLatestVersions (mkVersionController (mkPgVersionRepo db)) view w
      (http.mkRequest "GET" "/version/latest").
Proof. reflexivity. Qed.





Lemma dispatch_latest_failing db view w cause :
  LatestVersions (mkPgVersionRepo db) view = inl (mkStorageError cause) ->
  dispatch db view w (http.mkRequest "GET" "/version/latest")
  = (http.Write diagnosticBody (http.WriteHeader http.StatusInternalServerError w),
     [mkEntry ErrorLevel "Fetching latest versions failed." [("error", cause)]]).
Proof.
  intros H. rewrite dispatch_latest. unfold ServeLatestVersions. cbn [Repo].
  rewrite H. reflexivity.
Qed.

(** ** The process while [main] waits *)

Lemma after_interruption_exits env q :
  exists q', after_interruption env q = Exited 0 q'.
Proof.
  unfold after_interruption, shutdown, server_Shutdown, context.WithTimeout.
  cbn. destruct (env_srv_shutdown env _ _); cbn; eauto.
Qed.

Lemma boot_waiting env :
  is_waiting (boot env) = true -> waiting_inv env (boot env).
Proof.
  destruct env as [fp ge opf sqo lis shut pg bt].
  unfold boot, main, flag_Parse, setupLogger, openDb, os_OpenFile, sql.Open,
    go_ListenAndServe, awaitInterruption, init_proc, is_waiting.
  cbn [env_flag_parse env_getenv env_open_file env_sql_open env_listen env_boot_time].
  destruct fp as [code|]; [cbn; discriminate|].
  destruct (opf logPath) as [e|];
    [destruct (ge "verbose" =? "true")%string; cbn; discriminate|].
  destruct (sqo "pg" (ge "POSTGRES_DSN")) as [e|].
  { destruct (ge "verbose" =? "true")%string, (ge "POSTGRES_DSN" =? "")%string;
      cbn; discriminate. }
  destruct (ge "verbose" =? "true")%string, (ge "POSTGRES_DSN" =? "")%string;
    cbn; intros _; constructor; cbn; try reflexivity;
    (eexists; split; [reflexivity|intros v q; reflexivity]).
Qed.

Lemma write_enabled e p :
  logrus.IsLevelEnabled p (e_level e) = true ->
  logrus.write e p = set_log_out (log_out p ++ [e]) p.
Proof. intros H. unfold logrus.write. rewrite H. reflexivity. Qed.

Lemma enabled_above_info p l :
  logrus.IsLevelEnabled p InfoLevel = true ->
  (level_rank l <= 4)%nat ->
  logrus.IsLevelEnabled p l = true.
Proof.
  unfold logrus.IsLevelEnabled. cbn [level_rank].
  rewrite !Nat.leb_le. lia.
Qed.

Lemma write_same_but_log e p : same_but_log p (logrus.write e p).
Proof.
  unfold logrus.write, same_but_log.
  destruct (logrus.IsLevelEnabled p (e_level e)); cbn; repeat split; reflexivity.
Qed.

Lemma writes_same_but_log es p :
  same_but_log p (fold_left (fun q e => logrus.write e q) es p).
Proof.
  revert p. induction es as [|e es IH]; intros p; cbn [fold_left].
  - unfold same_but_log. repeat split; reflexivity.
  - specialize (IH (logrus.write e p)).
    pose proof (write_same_but_log e p) as H.
    unfold same_but_log in *.
    destruct IH as (?&?&?&?&?&?&?), H as (?&?&?&?&?&?&?).
    repeat split; congruence.
Qed.

Lemma same_but_log_inv env ph p q snt snt' :
  same_but_log p q ->
  waiting_inv env (mkSys ph p snt) ->
  waiting_inv env (mkSys ph q snt').
Proof.
  intros (Hl&Hh&Hf&Hd&Hs&Hc&_) [I1 I2 I3 I4 I5 I6 I7]. cbn [proc phase] in *.
  constructor; cbn [proc phase]; try congruence.
  unfold logrus.IsLevelEnabled in *. rewrite Hl. exact I2.
Qed.

Lemma is_waiting_phase s : is_waiting s = true -> exists k, phase s = Waiting k.
Proof. unfold is_waiting. destruct (phase s); [eauto|discriminate]. Qed.

(** A step that leaves [main] waiting started from [main] waiting and
    keeps the invariant. *)
Lemma step_waiting env s e :
  is_waiting (step env s e) = true ->
  (is_waiting s = true -> waiting_inv env s) ->
  is_waiting s = true /\ waiting_inv env (step env s e).
Proof.
  intros Hw Hinv. unfold step in *.
  destruct s as [ph p snt]. cbn [phase proc sent] in *.
  destruct ph as [k|how]; [|cbn in Hw; discriminate].
  specialize (Hinv eq_refl). split; [reflexivity|].
  destruct e as [sig|r|d].
  - destruct (signal.deliver sig p) as [p1|] eqn:Hdel.
    + exfalso.
      pose proof (inv_chan _ _ Hinv) as Hch. cbn [proc] in Hch.
      destruct (inv_main _ _ Hinv) as (k0 & [= <-] & Hk).
      unfold signal.deliver in Hdel. rewrite Hch in Hdel.
      destruct sig; try discriminate. cbn in Hdel. injection Hdel as <-.
      unfold signal.recv in Hw. cbn [sigchan set_sigchan] in Hw.
      rewrite Hk in Hw.
      destruct (after_interruption_exits env (set_sigchan (Some []) (set_sigchan (Some [SIGINT]) p)))
        as [q' Hq'].
      rewrite Hq' in Hw. cbn in Hw. discriminate.
    + destruct (signal.fatal sig); [cbn in Hw; discriminate|exact Hinv].
  - unfold serve in *. cbn [proc phase sent] in *.
    destruct (srv p) eqn:Hsrv; try exact Hinv.
    destruct (http.srv_Handler server _ _ _) as [w es].
    eapply same_but_log_inv; [apply writes_same_but_log|exact Hinv].
  - destruct Hinv as [I1 I2 I3 I4 I5 I6 I7]. cbn [proc phase] in *.
    constructor; cbn; assumption.
Qed.

Lemma run_snoc env evs e : run env (evs ++ [e]) = step env (run env evs) e.
Proof. unfold run. rewrite fold_left_app. reflexivity. Qed.

Lemma run_waiting env evs :
  is_waiting (run env evs) = true -> waiting_inv env (run env evs).
Proof.
  induction evs as [|e evs IH] using rev_ind; intros H.
  - apply boot_waiting. exact H.
  - rewrite run_snoc in *. apply step_waiting in H as [_ H]; [exact H|].
    exact IH.
Qed.

Lemma interrupt_shuts_down env s :
  waiting_inv env s ->
  let now := clock (proc s) in
  let deadline := now + 10 * time_Second in
  let s' := step env s (EvSignal SIGINT) in
  phase s' = Ended (ExitStatus 0)
  /\ srv (proc s') = SrvShutdown deadline
  /\ log_out (proc s')
     = log_out (proc s) ++ shuttingDownEntry ::
         match env_srv_shutdown env now deadline with
         | Some e => [shutdownFailedEntry e]
         | None => []
         end
  /\ files (proc s') = [false]
  /\ sent s' = sent s.
Proof.
  destruct s as [ph [lvl out hs fs dbs sv ch ck] snt].
  cbn [phase proc sent clock log_out]. intros [(k & Hk & Hkk) I2 I3 I4 I5 I6 I7].
  cbn [phase proc log_handlers files sqldbs sigchan srv] in *. subst hs fs ch ph.
  unfold logrus.IsLevelEnabled in I2. cbn [log_level level_rank] in I2.
  unfold step. cbn [phase proc sent]. unfold signal.deliver, signal.recv.
  cbn [sigchan set_sigchan List.length Nat.ltb Nat.leb app].
  rewrite Hkk.
  unfold after_interruption, shutdown, server_Shutdown, context.WithTimeout,
    shuttingDownEntry, shutdownFailedEntry.
  destruct lvl; try discriminate I2; cbn;
    destruct (env_srv_shutdown env ck (ck + 10 * time_Second)); cbn;
    rewrite <- ?app_assoc; repeat split; reflexivity.
Qed.

Lemma boot_not_shut_down env d : srv (proc (boot env)) <> SrvShutdown d.
Proof.
  destruct env as [fp ge opf sqo lis shut pg bt].
  unfold boot, main, flag_Parse, setupLogger, openDb, os_OpenFile, sql.Open,
    go_ListenAndServe, awaitInterruption, init_proc.
  cbn [env_flag_parse env_getenv env_open_file env_sql_open env_listen env_boot_time].
  destruct fp as [code|]; [cbn; discriminate|].
  destruct (opf logPath) as [e|];
    [destruct (ge "verbose" =? "true")%string; cbn; discriminate|].
  destruct (sqo "pg" (ge "POSTGRES_DSN")) as [e|].
  { destruct (ge "verbose" =? "true")%string, (ge "POSTGRES_DSN" =? "")%string;
      cbn; discriminate. }
  destruct (ge "verbose" =? "true")%string, (ge "POSTGRES_DSN" =? "")%string;
    cbn; destruct (lis "127.0.0.1:2137"); discriminate.
Qed.

(** While [main] waits, an event other than the interrupt leaves it
    waiting or kills the process; the server is not shut down. *)
Lemma other_event_keeps_waiting env s e :
  waiting_inv env s ->
  e <> EvSignal SIGINT ->
  (phase (step env s e) = phase s
   \/ exists sig, phase (step env s e) = Ended (KilledBy sig))
  /\ srv (proc (step env s e)) = srv (proc s).
Proof.
  intros Hinv Hne. unfold step.
  destruct (inv_main _ _ Hinv) as (k & Hph & _). rewrite Hph.
  destruct e as [sig|r|d].
  - pose proof (inv_chan _ _ Hinv) as Hch.
    unfold signal.deliver. rewrite Hch.
    destruct sig; try congruence; cbn; (split; [|reflexivity]); eauto.
  - unfold serve. destruct (srv (proc s)) eqn:Hsrv; try (rewrite Hsrv; auto).
    destruct (http.srv_Handler server _ _ _) as [w es]. cbn [phase proc].
    split; [left; exact Hph|].
    pose proof (writes_same_but_log es (proc s)) as (_&_&_&_&Hs&_).
    rewrite Hs. exact Hsrv.
  - cbn. auto.
Qed.

Lemma step_ended env s e how : phase s = Ended how -> step env s e = s.
Proof. intros H. unfold step. rewrite H. reflexivity. Qed.

Lemma steps_ended env s es how : phase s = Ended how -> fold_left (step env) es s = s.
Proof.
  intros H. induction es as [|e es IH]; cbn [fold_left]; [reflexivity|].
  rewrite (step_ended env s e how H). exact IH.
Qed.

Lemma shutdown_needs_interrupt env evs d :
  srv (proc (run env evs)) = SrvShutdown d -> EvSignal SIGINT ∈ evs.
Proof.
  induction evs as [|e evs IH] using rev_ind; intros H.
  - exfalso. exact (boot_not_shut_down env d H).
  - rewrite run_snoc in H. apply elem_of_app.
    destruct (phase (run env evs)) as [k|how] eqn:Hph.
    + destruct (decide (e = EvSignal SIGINT)) as [->|Hne].
      * right. apply list_elem_of_singleton. reflexivity.
      * left. apply IH.
        assert (Hw : is_waiting (run env evs) = true)
          by (unfold is_waiting; rewrite Hph; reflexivity).
        rewrite <- (proj2 (other_event_keeps_waiting env _ e
                             (run_waiting env evs Hw) Hne)).
        exact H.
    + left. apply IH. rewrite (step_ended env _ e how Hph) in H. exact H.
Qed.

Lemma writes_log_out es p :
  log_out (fold_left (fun q e => logrus.write e q) es p)
  = log_out p ++ filter (fun e => logrus.IsLevelEnabled p (e_level e) = true) es.
Proof.
  revert p. induction es as [|e es IH]; intros p; cbn [fold_left].
  - rewrite app_nil_r. reflexivity.
  - rewrite IH, filter_cons.
    assert (Hsame : forall l, logrus.IsLevelEnabled (logrus.write e p) l
                              = logrus.IsLevelEnabled p l).
    { intros l. unfold logrus.IsLevelEnabled.
      destruct (write_same_but_log e p) as (-> & _). reflexivity. }
    assert (Hfil : filter (fun e0 => logrus.IsLevelEnabled (logrus.write e p) (e_level e0) = true) es
                   = filter (fun e0 => logrus.IsLevelEnabled p (e_level e0) = true) es).
    { apply list_filter_iff. intros x. rewrite Hsame. reflexivity. }
    rewrite Hfil. unfold logrus.write.
    destruct (logrus.IsLevelEnabled p (e_level e)) eqn:He.
    + rewrite decide_True by reflexivity. cbn [log_out set_log_out].
      rewrite <- app_assoc. reflexivity.
    + rewrite decide_False by discriminate. reflexivity.
Qed.

(** X12. In the running program every request the server answers
    leaves exactly one "Handling request." entry in the log, ahead of
    whatever the route's handler logs: the entry is never filtered out by
    the logger level. *)
Lemma request_logged_once env evs r :
  is_waiting (run env evs) = true ->
  env_listen env listenAddr = None ->
  let s := run env evs in
  exists rest,
    log_out (proc (step env s (EvRequest r))) = log_out (proc s) ++ handlingEntry r :: rest
    /\ filter (fun e => isHandling e) rest = [].
Proof.
  intros Hw Hlis. cbn zeta.
  pose proof (run_waiting env evs Hw) as Hinv.
  destruct (inv_main _ _ Hinv) as (k & Hph & _).
  pose proof (inv_srv _ _ Hinv) as Hsrv. rewrite Hlis in Hsrv.
  unfold step, serve. rewrite Hph, Hsrv. unfold theServer. cbn [http.srv_Handler].
  rewrite createHttpHandler_dispatch. cbn [proc].
  rewrite writes_log_out, filter_cons.
  rewrite decide_True by (exact (inv_level _ _ Hinv)).
  eexists. split; [reflexivity|].
  rewrite list_filter_filter.
  match goal with
  | |- filter ?P ?l = [] =>
      assert (Hall : Forall (fun e => ~ isHandling e) l)
  end.
  { pose proof (dispatch_entries (mkBunDB (Some 0%nat) "pg")
                  (http.mkView (sqldbs (proc (run env evs)))
                     (env_pg env (clock (proc (run env evs)))))
                  http.new_writer r) as Hd.
    apply Forall_forall. intros e He Hh.
    assert (Hin : e ∈ filter (fun e => isHandling e)
                    (snd (dispatch (mkBunDB (Some 0%nat) "pg")
                            (http.mkView (sqldbs (proc (run env evs)))
                               (env_pg env (clock (proc (run env evs)))))
                            http.new_writer r)))
      by (apply list_elem_of_filter; split; assumption).
    rewrite Hd in Hin. inversion Hin. }
  induction Hall as [|e l He Hl IH]; [reflexivity|].
  rewrite filter_cons. rewrite decide_False by (intros [H1 H2]; exact (He H1)).
  exact IH.
Qed.

(** ** Claims about the database handle *)


(** In the running program the handle the repository holds is closed
    whenever a request can arrive. *)
Lemma waiting_handle_closed env evs rows :
  is_waiting (run env evs) = true ->
  sql.Query (sqldbs (proc (run env evs))) (Some 0%nat) rows = inl sql.errDBClosed.
Proof.
  intros H. apply run_waiting in H. unfold sql.Query.
  rewrite (inv_sqldbs _ _ H). reflexivity.
Qed.

(** ** Claims about the lifecycle *)

(** C1 fails on the code.  With the listening address already in use,
    [main] still reaches the wait: it is blocked in the receive of
    [awaitInterruption], the server is not listening, nothing about the
    failure has been logged, and after an interrupt the process exits
    with status 0. *)
Theorem bind_failure_reaches_wait :
  is_waiting (boot env_port_taken) = true
  /\ srv (proc (boot env_port_taken))
     = SrvBindFailed "listen tcp 127.0.0.1:2137: bind: address already in use"
  /\ signal.recv (proc (boot env_port_taken)) = None
  /\ map e_msg (log_out (proc (boot env_port_taken)))
     = ["Starting backend."; "Opening database."; "Creating http handler.";
        "Starting listening... To shut down use ^C"]
  /\ phase (run env_port_taken [EvSignal SIGINT]) = Ended (ExitStatus 0).
Proof. repeat split; reflexivity. Qed.

(** C3. When the interrupt arrives while [main] waits, [Shutdown] is
    called with a deadline exactly ten seconds after that moment; an
    error it returns is logged once, at warning level, after "Shutting
    down...", and no error is logged otherwise; in both cases the
    process exits through [logrus.Exit], whose registered handler closes
    the log file, which was open until then. *)
Theorem shutdown_deadline_warning_and_close env evs :
  is_waiting (run env evs) = true ->
  let s := run env evs in
  let s' := step env s (EvSignal SIGINT) in
  let now := clock (proc s) in
  srv (proc s') = SrvShutdown (now + 10 * 1000000000)
  /\ log_out (proc s')
     = log_out (proc s) ++ shuttingDownEntry ::
         match env_srv_shutdown env now (now + 10 * 1000000000) with
         | Some e => [shutdownFailedEntry e]
         | None => []
         end
  /\ phase s' = Ended (ExitStatus 0)
  /\ log_handlers (proc s) = [CloseLogFile (Some 0%nat)]
  /\ files (proc s) !! 0%nat = Some true
  /\ files (proc s') !! 0%nat = Some false.
Proof.
  intros Hw. cbn zeta.
  pose proof (run_waiting env evs Hw) as Hinv.
  destruct (interrupt_shuts_down env _ Hinv) as (H1 & H2 & H3 & H4 & _).
  split; [exact H2|]. split; [exact H3|]. split; [exact H1|].
  split; [exact (inv_handlers _ _ Hinv)|].
  rewrite (inv_files _ _ Hinv), H4. split; reflexivity.
Qed.

Lemma shutdown_deadline_warning_and_close_witness :
  let s := run env_sample [EvTick 7; EvRequest (http.mkRequest "GET" "/")] in
  let s' := step env_sample s (EvSignal SIGINT) in
  srv (proc s') = SrvShutdown 10000000007
  /\ log_out (proc s')
     = log_out (proc s) ++ [shuttingDownEntry; shutdownFailedEntry "context deadline exceeded"]
  /\ files (proc s') !! 0%nat = Some false.
Proof.
  destruct (shutdown_deadline_warning_and_close env_sample
              [EvTick 7; EvRequest (http.mkRequest "GET" "/")] eq_refl)
    as (H1 & H2 & _ & _ & _ & H6).
  cbn zeta. split; [exact H1|]. split; [exact H2|exact H6].
Defined.

(** C10. [shutdown] ends the process with status 0 in every case: the
    call of [logrus.Exit(0)] follows the error branch and the branch
    without error alike. *)
Theorem shutdown_always_exits_zero env ctx server p :
  let p1 := set_srv (SrvShutdown (context.deadline ctx)) p in
  shutdown env ctx server p
  = Exited 0
      (logrus.runHandlers
         match env_srv_shutdown env (clock p) (context.deadline ctx) with
         | Some e => logrus.write (shutdownFailedEntry e) p1
         | None => p1
         end).
Proof.
  cbn zeta. unfold shutdown, server_Shutdown, bind.
  destruct (env_srv_shutdown env (clock p) (context.deadline ctx)); reflexivity.
Qed.

(** ** Claims about a failing repository call *)

(** C4 (against the controller and repository modelled from the spec).
    While the server listens, a GET of [/version/latest] whose repository
    call fails with a StorageError is answered with status 500 and the
    diagnostic body; the log gains the middleware's entry and one entry
    for the failure, no more; and nothing else of the process changes:
    [main] keeps waiting, the server keeps listening, the handles, the
    files and the earlier responses are as before. *)
Theorem storage_error_contained env s db r cause :
  is_waiting s = true ->
  srv (proc s) = SrvListening (http.mkServer listenAddr (createHttpHandler db)) ->
  logrus.IsLevelEnabled (proc s) InfoLevel = true ->
  http.Method r = "GET" ->
  http.Path r = "/version/latest" ->
  LatestVersions (mkPgVersionRepo db)
    (http.mkView (sqldbs (proc s)) (env_pg env (clock (proc s))))
  = inl (mkStorageError cause) ->
  step env s (EvRequest r)
  = mkSys (phase s)
      (set_log_out (log_out (proc s) ++ [handlingEntry r; fetchFailedEntry cause]) (proc s))
      (sent s ++ [(r, http.mkResponse http.StatusInternalServerError [] diagnosticBody)]).
Proof.
  intros Hw Hsrv Hlvl Hm Hp Hfail.
  destruct r as [m path]. cbn [http.Method http.Path] in Hm, Hp. subst m path.
  apply is_waiting_phase in Hw as [k Hph].
  unfold step, serve. rewrite Hph, Hsrv. cbn [http.srv_Handler].
  rewrite createHttpHandler_dispatch.
  rewrite (dispatch_latest_failing db _ _ cause Hfail).
  cbn [fst snd fold_left]. unfold respond, fetchFailedEntry.
  rewrite (write_enabled (handlingEntry _)) by exact Hlvl.
  rewrite write_enabled.
  - destruct (proc s); cbn. rewrite <- app_assoc. reflexivity.
  - apply enabled_above_info; [exact Hlvl|cbn; lia].
Qed.

Lemma storage_error_contained_witness :
  step env_sample (boot env_sample) (EvRequest (http.mkRequest "GET" "/version/latest"))
  = mkSys (phase (boot env_sample))
      (set_log_out
         (log_out (proc (boot env_sample))
          ++ [handlingEntry (http.mkRequest "GET" "/version/latest");
              fetchFailedEntry sql.errDBClosed])
         (proc (boot env_sample)))
      [(http.mkRequest "GET" "/version/latest",
        http.mkResponse http.StatusInternalServerError [] diagnosticBody)].
Proof.
  apply (storage_error_contained env_sample (boot env_sample)
           (mkBunDB (Some 0%nat) "pg")
           (http.mkRequest "GET" "/version/latest") sql.errDBClosed);
    reflexivity.
Defined.

(** ** Claims about the wait *)

(** C6. Whenever [main] is blocked in [awaitInterruption], the receive
    has nothing to take and the server has not been shut down; any event
    other than the interrupt signal leaves [main] blocked (or kills the
    process outright) and does not start the shutdown; the interrupt is
    relayed to the channel, the receive takes it, and the shutdown runs;
    since the process then ends, no later event is taken.  Over whole
    runs: the shutdown of the server is never started unless an interrupt
    has arrived. *)
Theorem wait_ends_only_on_interrupt env evs :
  is_waiting (run env evs) = true ->
  let s := run env evs in
  signal.recv (proc s) = None
  /\ (forall d, srv (proc s) <> SrvShutdown d)
  /\ (forall e, e <> EvSignal SIGINT ->
        (phase (step env s e) = phase s
         \/ exists sig, phase (step env s e) = Ended (KilledBy sig))
        /\ srv (proc (step env s e)) = srv (proc s))
  /\ (exists p', signal.recv (default (proc s) (signal.deliver SIGINT (proc s)))
                 = Some (SIGINT, p'))
  /\ (exists d, srv (proc (step env s (EvSignal SIGINT))) = SrvShutdown d)
  /\ (forall more,
        run env (evs ++ EvSignal SIGINT :: more) = step env s (EvSignal SIGINT))
  /\ (forall evs' d, srv (proc (run env evs')) = SrvShutdown d -> EvSignal SIGINT ∈ evs').
Proof.
  intros Hw. cbn zeta.
  pose proof (run_waiting env evs Hw) as Hinv.
  pose proof (inv_chan _ _ Hinv) as Hch.
  pose proof (interrupt_shuts_down env _ Hinv) as (Hend & Hsrv & _).
  split; [|split; [|split; [|split; [|split; [|split]]]]].
  - unfold signal.recv. rewrite Hch. reflexivity.
  - intros d Hd. rewrite (inv_srv _ _ Hinv) in Hd.
    destruct (env_listen env listenAddr); discriminate.
  - intros e Hne. apply other_event_keeps_waiting; assumption.
  - unfold signal.deliver, signal.recv.
    rewrite Hch. cbn. eauto.
  - eauto.
  - intros more. unfold run. rewrite fold_left_app. cbn [fold_left].
    apply (steps_ended env _ more _ Hend).
  - intros evs' d. apply shutdown_needs_interrupt.
Qed.

Lemma wait_ends_only_on_interrupt_witness :
  let evs := [EvRequest (http.mkRequest "GET" "/"); EvSignal SIGCHLD; EvTick 3] in
  signal.recv (proc (run env_sample evs)) = None
  /\ (exists d, srv (proc (step env_sample (run env_sample evs) (EvSignal SIGINT)))
               = SrvShutdown d).
Proof.
  cbn zeta.
  destruct (wait_ends_only_on_interrupt env_sample
              [EvRequest (http.mkRequest "GET" "/"); EvSignal SIGCHLD; EvTick 3] eq_refl)
    as (H1 & _ & _ & _ & H5 & _).
  split; [exact H1|exact H5].
Defined.

(** ** Further properties of [main.go] *)

(** *** Startup *)

(** The four ways [main] can leave the process when it first stops. *)
Lemma boot_cases env :
  match env_flag_parse env with
  | Some code => boot env = mkSys (Ended (ExitStatus code)) (init_proc env) []
  | None =>
      match env_open_file env logPath with
      | Some e =>
          boot env
          = mkSys (Ended (ExitStatus 1))
              (mkProc (verbose_level env) [logFileFatalEntry e] [] [] [] SrvNew None
                 (env_boot_time env)) []
      | None =>
          match env_sql_open env "pg" (env_getenv env "POSTGRES_DSN") with
          | Some e =>
              boot env
              = mkSys (Ended (Panic "invalid memory address or nil pointer dereference"))
                  (mkProc (verbose_level env) (startup_log env ++ [dbOpenFailedEntry e])
                     [CloseLogFile (Some 0%nat)] [true] [] SrvNew None
                     (env_boot_time env)) []
          | None =>
              exists k,
                boot env
                = mkSys (Waiting k)
                    (mkProc (verbose_level env) (startup_log env ++ listening_log)
                       [CloseLogFile (Some 0%nat)] [true]
                       [mkSqlDB "pg" (env_getenv env "POSTGRES_DSN") true]
                       (match env_listen env listenAddr with
                        | None => SrvListening theServer
                        | Some e => SrvBindFailed e
                        end)
                       (Some []) (env_boot_time env)) []
          end
      end
  end.
Proof.
  destruct env as [fp ge opf sqo lis shut pg bt].
  unfold boot, main, flag_Parse, setupLogger, openDb, os_OpenFile, sql.Open,
    go_ListenAndServe, awaitInterruption, init_proc, verbose_level, startup_log,
    listening_log, logFileFatalEntry, dbOpenFailedEntry.
  cbn [env_flag_parse env_getenv env_open_file env_sql_open env_listen env_boot_time].
  destruct fp as [code|]; [reflexivity|].
  destruct (opf logPath) as [e|];
    [destruct (ge "verbose" =? "true")%string; reflexivity|].
  destruct (sqo "pg" (ge "POSTGRES_DSN")) as [e|].
  { destruct (ge "verbose" =? "true")%string, (ge "POSTGRES_DSN" =? "")%string;
      reflexivity. }
  destruct (ge "verbose" =? "true")%string, (ge "POSTGRES_DSN" =? "")%string;
    eexists; reflexivity.
Qed.

(** X1. When the log file cannot be opened, [setupLogger] ends the
    process with status 1: the one entry written is the fatal entry
    naming the file and the cause, no exit handler has been registered,
    and nothing after [setupLogger] has run (no database handle, no
    server, no signal channel). *)
Theorem log_file_failure_is_fatal env e :
  env_flag_parse env = None ->
  env_open_file env logPath = Some e ->
  boot env
  = mkSys (Ended (ExitStatus 1))
      (mkProc (verbose_level env) [logFileFatalEntry e] [] [] [] SrvNew None
         (env_boot_time env)) [].
Proof.
  intros Hf Ho. pose proof (boot_cases env) as H. rewrite Hf, Ho in H. exact H.
Qed.

Lemma log_file_failure_is_fatal_witness :
  boot env_no_log_file
  = mkSys (Ended (ExitStatus 1))
      (mkProc InfoLevel [logFileFatalEntry "permission denied"] [] [] [] SrvNew None 0) [].
Proof.
  exact (log_file_failure_is_fatal env_no_log_file "permission denied" eq_refl eq_refl).
Defined.



(** X4. When [sql.Open] returns an error, the error is logged with its
    text and the process then dies in the deferred [Close] on the nil
    handle: the server is never started, the signal channel never
    registered, and the log file is left open, since a panic runs no
    exit handler. *)
Theorem database_open_failure_panics env e :
  env_flag_parse env = None ->
  env_open_file env logPath = None ->
  env_sql_open env "pg" (env_getenv env "POSTGRES_DSN") = Some e ->
  (exists why, phase (boot env) = Ended (Panic why))
  /\ log_out (proc (boot env)) = startup_log env ++ [dbOpenFailedEntry e]
  /\ srv (proc (boot env)) = SrvNew
  /\ sigchan (proc (boot env)) = None
  /\ files (proc (boot env)) = [true]
  /\ sqldbs (proc (boot env)) = [].
Proof.
  intros Hf Ho Hs. pose proof (boot_cases env) as H. rewrite Hf, Ho, Hs in H.
  rewrite H. split; [eexists; reflexivity|]. repeat split; reflexivity.
Qed.

Lemma database_open_failure_panics_witness :
  (exists why, phase (boot env_no_driver) = Ended (Panic why))
  /\ last (log_out (proc (boot env_no_driver)))
     = Some (dbOpenFailedEntry "sql: unknown driver")
  /\ files (proc (boot env_no_driver)) = [true].
Proof.
  destruct (database_open_failure_panics env_no_driver "sql: unknown driver"
              eq_refl eq_refl eq_refl)
    as (H1 & H2 & _ & _ & H5 & _).
  split; [exact H1|]. split; [rewrite H2; reflexivity|exact H5].
Defined.

(** *** What a step keeps *)

(** An event other than the interrupt changes, of the process, only the
    log and the clock. *)
Lemma deliver_other sig p : sig <> SIGINT -> signal.deliver sig p = None.
Proof.
  intros H. unfold signal.deliver.
  destruct (sigchan p), sig; congruence.
Qed.

Lemma other_event_keeps_process env s e :
  waiting_inv env s ->
  e <> EvSignal SIGINT ->
  let p := proc s in
  let p' := proc (step env s e) in
  log_level p' = log_level p /\ log_handlers p' = log_handlers p
  /\ files p' = files p /\ sqldbs p' = sqldbs p /\ sigchan p' = sigchan p
  /\ exists more, log_out p' = log_out p ++ more.
Proof.
  intros Hinv Hne. cbn zeta. unfold step.
  destruct (inv_main _ _ Hinv) as (k & Hph & _). rewrite Hph.
  assert (Hsame : forall q : Proc,
             log_level q = log_level q /\ log_handlers q = log_handlers q
             /\ files q = files q /\ sqldbs q = sqldbs q /\ sigchan q = sigchan q
             /\ exists more, log_out q = log_out q ++ more).
  { intros q. do 5 (split; [reflexivity|]). exists []. rewrite app_nil_r. reflexivity. }
  destruct e as [sig|r|d].
  - rewrite deliver_other by congruence.
    destruct (signal.fatal sig); cbn; apply Hsame.
  - unfold serve.
    destruct (srv (proc s)) eqn:Hsrv; try apply Hsame.
    destruct (http.srv_Handler server _ _ _) as [w es]. cbn [proc].
    pose proof (writes_same_but_log es (proc s)) as (H1&H2&H3&H4&_&H6&_).
    do 5 (split; [assumption|]).
    rewrite writes_log_out. eauto.
  - cbn. apply Hsame.
Qed.

(** The interrupt changes the log, the server state and the log file;
    the logger level and the database handles stay. *)
Lemma interrupt_keeps_process env s :
  waiting_inv env s ->
  let p := proc s in
  let p' := proc (step env s (EvSignal SIGINT)) in
  log_level p' = log_level p /\ sqldbs p' = sqldbs p.
Proof.
  destruct s as [ph [lvl out hs fs dbs sv ch ck] snt].
  cbn [phase proc sent]. intros [(k & Hk & Hkk) I2 I3 I4 I5 I6 I7].
  cbn [phase proc log_handlers files sqldbs sigchan srv log_level] in *.
  subst hs fs ch ph.
  unfold logrus.IsLevelEnabled in I2. cbn [log_level level_rank] in I2.
  unfold step. cbn [phase proc sent]. unfold signal.deliver, signal.recv.
  cbn [sigchan set_sigchan List.length Nat.ltb Nat.leb app].
  rewrite Hkk.
  unfold after_interruption, shutdown, server_Shutdown, context.WithTimeout.
  destruct lvl; try discriminate I2; cbn;
    destruct (env_srv_shutdown env ck (ck + 10 * time_Second)); cbn;
    split; reflexivity.
Qed.

Lemma run_phase_cases env evs :
  (exists how, phase (run env evs) = Ended how) \/ waiting_inv env (run env evs).
Proof.
  destruct (phase (run env evs)) as [k|how] eqn:Hph; [right|left; eauto].
  apply run_waiting. unfold is_waiting. rewrite Hph. reflexivity.
Qed.

Lemma step_keeps_level_and_handles env evs e :
  log_level (proc (step env (run env evs) e)) = log_level (proc (run env evs))
  /\ sqldbs (proc (step env (run env evs) e)) = sqldbs (proc (run env evs)).
Proof.
  destruct (run_phase_cases env evs) as [[how Hend]|Hinv].
  - rewrite (step_ended env _ e how Hend). split; reflexivity.
  - destruct (decide (e = EvSignal SIGINT)) as [->|Hne].
    + apply interrupt_keeps_process. exact Hinv.
    + destruct (other_event_keeps_process env _ e Hinv Hne) as (H1&_&_&H4&_).
      split; assumption.
Qed.

Lemma run_keeps_level_and_handles env evs :
  log_level (proc (run env evs)) = log_level (proc (boot env))
  /\ sqldbs (proc (run env evs)) = sqldbs (proc (boot env)).
Proof.
  induction evs as [|e evs IH] using rev_ind; [split; reflexivity|].
  rewrite run_snoc.
  destruct (step_keeps_level_and_handles env evs e) as [H1 H2].
  destruct IH as [IH1 IH2]. split; congruence.
Qed.

(** X2. The logger level is decided once, by [setupLogger], and never
    changes afterwards: at every moment of every run it is Debug when
    the variable [verbose] is exactly "true" (and the command line was
    accepted), and Info otherwise.  So no entry of level Info, Warning,
    Error or Fatal is ever filtered out, and Debug entries are written
    only in verbose mode. *)
Theorem logger_level_fixed_at_startup env evs :
  let p := proc (run env evs) in
  let verbose :=
    bool_decide (env_flag_parse env = None)
    && String.eqb (env_getenv env "verbose") "true" in
  log_level p = (if verbose then DebugLevel else InfoLevel)
  /\ logrus.IsLevelEnabled p InfoLevel = true
  /\ logrus.IsLevelEnabled p WarnLevel = true
  /\ logrus.IsLevelEnabled p ErrorLevel = true
  /\ logrus.IsLevelEnabled p FatalLevel = true
  /\ logrus.IsLevelEnabled p DebugLevel = verbose
  /\ logrus.IsLevelEnabled p TraceLevel = false.
Proof.
  cbn zeta. unfold logrus.IsLevelEnabled.
  rewrite (proj1 (run_keeps_level_and_handles env evs)).
  pose proof (boot_cases env) as H. unfold verbose_level in H.
  destruct (env_flag_parse env) as [code|].
  - rewrite H. cbn. repeat split; reflexivity.
  - rewrite bool_decide_eq_true_2 by reflexivity. cbn [andb].
    destruct (env_open_file env logPath) as [e|];
      [|destruct (env_sql_open env "pg" _) as [e|]; [|destruct H as [k H]]];
      rewrite H; cbn [proc log_level];
      destruct (env_getenv env "verbose" =? "true")%string; cbn;
      repeat split; reflexivity.
Qed.


(** *** Signals *)

(** X8. Only the interrupt is relayed to [main].  While [main] waits,
    any other signal has its default effect: a fatal one ends the
    process on the spot, with no part of the shutdown run (nothing
    logged, the server not shut down, the log file still open), and an
    ignored one changes nothing. *)
Theorem other_signal_skips_shutdown env evs sig :
  is_waiting (run env evs) = true ->
  sig <> SIGINT ->
  let s := run env evs in
  step env s (EvSignal sig)
  = (if signal.fatal sig then mkSys (Ended (KilledBy sig)) (proc s) (sent s) else s)
  /\ log_out (proc (step env s (EvSignal sig))) = log_out (proc s)
  /\ files (proc (step env s (EvSignal sig))) = [true]
  /\ (forall d, srv (proc (step env s (EvSignal sig))) <> SrvShutdown d).
Proof.
  intros Hw Hne. cbn zeta.
  pose proof (run_waiting env evs Hw) as Hinv.
  destruct (inv_main _ _ Hinv) as (k & Hph & _).
  assert (Hstep : step env (run env evs) (EvSignal sig)
                  = (if signal.fatal sig
                     then mkSys (Ended (KilledBy sig)) (proc (run env evs))
                            (sent (run env evs))
                     else run env evs)).
  { unfold step. rewrite Hph, (deliver_other sig _ Hne). reflexivity. }
  split; [exact Hstep|]. rewrite Hstep.
  assert (Hproc : proc (if signal.fatal sig
                        then mkSys (Ended (KilledBy sig)) (proc (run env evs))
                               (sent (run env evs))
                        else run env evs) = proc (run env evs))
    by (destruct (signal.fatal sig); reflexivity).
  rewrite Hproc. split; [reflexivity|]. split; [exact (inv_files _ _ Hinv)|].
  intros d Hd. rewrite (inv_srv _ _ Hinv) in Hd.
  destruct (env_listen env listenAddr); discriminate.
Qed.

Lemma other_signal_skips_shutdown_witness :
  let s := run env_sample [EvRequest (http.mkRequest "GET" "/")] in
  step env_sample s (EvSignal SIGTERM) = mkSys (Ended (KilledBy SIGTERM)) (proc s) (sent s)
  /\ files (proc (step env_sample s (EvSignal SIGTERM))) = [true].
Proof.
  destruct (other_signal_skips_shutdown env_sample
              [EvRequest (http.mkRequest "GET" "/")] SIGTERM eq_refl
              ltac:(discriminate))
    as (H1 & _ & H3 & _).
  cbn zeta. split; [exact H1|exact H3].
Defined.

Lemma boot_files env fd : files (proc (boot env)) !! fd <> Some false.
Proof.
  pose proof (boot_cases env) as H.
  destruct (env_flag_parse env) as [code|];
    [|destruct (env_open_file env logPath) as [e|];
      [|destruct (env_sql_open env "pg" _) as [e|]; [|destruct H as [k H]]]];
    rewrite H; cbn [proc files init_proc];
    destruct fd as [|[|fd]]; discriminate.
Qed.

(** X13. The log file is closed by the shutdown that follows an
    interrupt and by nothing else: in a run without an interrupt no file
    of the process is ever closed. *)
Theorem log_file_closed_only_after_interrupt env evs fd :
  files (proc (run env evs)) !! fd = Some false ->
  EvSignal SIGINT ∈ evs.
Proof.
  induction evs as [|e evs IH] using rev_ind; intros H.
  - exfalso. exact (boot_files env fd H).
  - rewrite run_snoc in H. apply elem_of_app.
    destruct (decide (e = EvSignal SIGINT)) as [->|Hne].
    { right. apply list_elem_of_singleton. reflexivity. }
    left. apply IH.
    destruct (run_phase_cases env evs) as [[how Hend]|Hinv].
    + rewrite (step_ended env _ e how Hend) in H. exact H.
    + destruct (other_event_keeps_process env _ e Hinv Hne) as (_&_&Hf&_).
      rewrite Hf in H. exact H.
Qed.

Lemma log_file_closed_only_after_interrupt_witness :
  files (proc (run env_sample [EvTick 1; EvSignal SIGINT])) !! 0%nat = Some false
  /\ EvSignal SIGINT ∈ [EvTick 1; EvSignal SIGINT].
Proof.
  split; [reflexivity|].
  exact (log_file_closed_only_after_interrupt env_sample
           [EvTick 1; EvSignal SIGINT] 0%nat eq_refl).
Defined.

(** *** Responses and the log over a run *)

Lemma other_event_sent env s e :
  waiting_inv env s ->
  e <> EvSignal SIGINT ->
  sent (step env s e)
  = sent s ++
      match e, srv (proc s) with
      | EvRequest r, SrvListening server =>
          [(r, respond (http.srv_Handler server)
                 (http.mkView (sqldbs (proc s)) (env_pg env (clock (proc s)))) r)]
      | _, _ => []
      end.
Proof.
  intros Hinv Hne. unfold step.
  destruct (inv_main _ _ Hinv) as (k & Hph & _). rewrite Hph.
  destruct e as [sig|r|d].
  - rewrite deliver_other by congruence.
    destruct (signal.fatal sig); cbn; rewrite app_nil_r; reflexivity.
  - unfold serve, respond.
    destruct (srv (proc s)) eqn:Hsrv; try (rewrite app_nil_r; reflexivity).
    destruct (http.srv_Handler server _ _ _) as [w es]. reflexivity.
  - cbn. rewrite app_nil_r. reflexivity.
Qed.

Lemma step_extends env evs e :
  log_out (proc (run env evs)) `prefix_of` log_out (proc (step env (run env evs) e))
  /\ sent (run env evs) `prefix_of` sent (step env (run env evs) e).
Proof.
  destruct (run_phase_cases env evs) as [[how Hend]|Hinv].
  - rewrite (step_ended env _ e how Hend). split; reflexivity.
  - destruct (decide (e = EvSignal SIGINT)) as [->|Hne].
    + destruct (interrupt_shuts_down env _ Hinv) as (_ & _ & Hlog & _ & Hsent).
      rewrite Hlog, Hsent. split; [apply prefix_app_r|]; reflexivity.
    + destruct (other_event_keeps_process env _ e Hinv Hne) as (_&_&_&_&_&more&Hlog).
      rewrite Hlog, (other_event_sent env _ e Hinv Hne).
      split; apply prefix_app_r; reflexivity.
Qed.

(** X11. The log and the sequence of responses only grow: whatever has
    been logged or answered at some moment of a run is still there,
    unchanged and in the same order, at every later moment. *)
Theorem log_and_responses_append_only env evs more :
  log_out (proc (run env evs)) `prefix_of` log_out (proc (run env (evs ++ more)))
  /\ sent (run env evs) `prefix_of` sent (run env (evs ++ more)).
Proof.
  induction more as [|e more IH] using rev_ind.
  - rewrite app_nil_r. split; reflexivity.
  - rewrite app_assoc, run_snoc.
    destruct (step_extends env (evs ++ more) e) as [H1 H2].
    destruct IH as [IH1 IH2].
    split; etransitivity; eassumption.
Qed.

(** X9. When binding the listening address fails, the process stays up
    but never answers: in every run, no response is ever sent. *)
Theorem bind_failure_never_answers env err evs :
  env_listen env listenAddr = Some err ->
  sent (run env evs) = [].
Proof.
  intros Hlis. induction evs as [|e evs IH] using rev_ind.
  - unfold run, boot. cbn [fold_left].
    destruct (main env (init_proc env)); reflexivity.
  - rewrite run_snoc.
    destruct (run_phase_cases env evs) as [[how Hend]|Hinv].
    + rewrite (step_ended env _ e how Hend). exact IH.
    + destruct (decide (e = EvSignal SIGINT)) as [->|Hne].
      * destruct (interrupt_shuts_down env _ Hinv) as (_ & _ & _ & _ & Hsent).
        rewrite Hsent. exact IH.
      * rewrite (other_event_sent env _ e Hinv Hne), IH.
        rewrite (inv_srv _ _ Hinv), Hlis.
        destruct e; reflexivity.
Qed.

Lemma bind_failure_never_answers_witness :
  sent (run env_port_taken
          [EvRequest (http.mkRequest "GET" "/"); EvTick 2;
           EvRequest (http.mkRequest "GET" "/version/latest"); EvSignal SIGINT])
  = [].
Proof.
  exact (bind_failure_never_answers env_port_taken
           "listen tcp 127.0.0.1:2137: bind: address already in use" _ eq_refl).
Defined.

Lemma request_logged_once_witness :
  exists rest,
    log_out (proc (step env_sample (run env_sample [EvTick 1])
                     (EvRequest (http.mkRequest "PUT" "/nowhere"))))
    = log_out (proc (run env_sample [EvTick 1]))
      ++ handlingEntry (http.mkRequest "PUT" "/nowhere") :: rest
    /\ filter (fun e => isHandling e) rest = [].
Proof.
  exact (request_logged_once env_sample [EvTick 1]
           (http.mkRequest "PUT" "/nowhere") eq_refl eq_refl).
Defined.

(** *** Routes *)

(** X5. The route for [/version/latest] is restricted to GET, and the
    restriction is on the exact method name: for every other method, in
    any spelling, the answer is status 405 with an empty body.  Neither
    the controller nor the not-found handler is run, and only the
    middleware logs. *)
Theorem latest_other_method_not_allowed db view m :
  m <> "GET" ->
  createHttpHandler db view http.new_writer (http.mkRequest m "/version/latest")
  = (http.mkWriter (Some http.StatusMethodNotAllowed) [] "",
     [handlingEntry (http.mkRequest m "/version/latest")]).
Proof.
  intros Hm. rewrite createHttpHandler_dispatch. unfold dispatch.
  cbn [http.Path http.Method].
  change (mux.cleanPath "/version/latest") with "/version/latest".
  cbn [String.eqb Ascii.eqb Bool.eqb negb].
  rewrite (eqb_neq_false _ _ Hm). reflexivity.
Qed.

Lemma latest_other_method_not_allowed_witness :
  respond (createHttpHandler (mkBunDB (Some 0%nat) "pg"))
    (http.mkView [mkSqlDB "pg" "postgres://db" false] (Some three_versions))
    (http.mkRequest "get" "/version/latest")
  = http.mkResponse http.StatusMethodNotAllowed [] "".
Proof.
  unfold respond.
  rewrite (latest_other_method_not_allowed (mkBunDB (Some 0%nat) "pg")
             (http.mkView [mkSqlDB "pg" "postgres://db" false] (Some three_versions))
             "get" ltac:(discriminate)).
  reflexivity.
Defined.



(** X7. The database is consulted for GET [/version/latest] and for no
    other request: for every other request, what is written to the
    response and what is logged are the same whatever handle the handler
    was built on and whatever the state of the handles and of the
    database server. *)
Theorem only_latest_reads_database db db' view view' w r :
  http.Method r <> "GET" \/ http.Path r <> "/version/latest" ->
  createHttpHandler db view w r = createHttpHandler db' view' w r.
Proof.
  intros H. rewrite !createHttpHandler_dispatch. unfold dispatch.
  destruct (negb (mux.cleanPath (http.Path r) =? http.Path r)%string); [reflexivity|].
  destruct (http.Path r =? "/")%string; [reflexivity|].
  destruct (String.eqb_spec (http.Path r) "/version/latest") as [Hp|Hp];
    [|reflexivity].
  destruct (String.eqb_spec (http.Method r) "GET") as [Hm|Hm]; [|reflexivity].
  destruct H; contradiction.
Qed.

Lemma only_latest_reads_database_witness :
  createHttpHandler (mkBunDB (Some 0%nat) "pg")
    (http.mkView [mkSqlDB "pg" "postgres://db" false] (Some three_versions))
    http.new_writer (http.mkRequest "GET" "/version/oldest")
  = createHttpHandler (mkBunDB None "pg") (http.mkView [] None)
      http.new_writer (http.mkRequest "GET" "/version/oldest").
Proof.
  apply only_latest_reads_database. right. cbn [http.Path]. discriminate.
Defined.

(** *** The log file *)

Lemma insert_last_file (fs : list bool) :
  <[List.length fs := false]> (fs ++ [true]) = fs ++ [false].
Proof.
  induction fs as [|f fs IH]; [reflexivity|].
  cbn. f_equal. exact IH.
Qed.

(** X14. Opening and closing the log file pair up: from a process in
    which no exit handler is registered yet, [setupLogger] (when the file
    can be opened) followed by [logrus.Exit] ends the process with the
    code given, with the log file it opened closed, every file opened
    before it as it was, and nothing logged. *)
Theorem setupLogger_then_Exit_closes_log_file env verbose code p :
  env_open_file env logPath = None ->
  log_handlers p = [] ->
  exists p',
    (setupLogger env verbose ;;; logrus.Exit (A := unit) code) p = Exited code p'
    /\ files p' = files p ++ [false]
    /\ log_out p' = log_out p
    /\ log_handlers p' = [CloseLogFile (Some (List.length (files p)))].
Proof.
  intros Ho Hh. destruct p as [lvl out hs fs dbs sv ch ck].
  cbn [log_handlers] in Hh. subst hs.
  unfold setupLogger, os_OpenFile. rewrite Ho.
  destruct verbose; (eexists; split; [reflexivity|]);
    cbn; rewrite insert_last_file; repeat split; reflexivity.
Qed.

Lemma setupLogger_then_Exit_closes_log_file_witness :
  exists p',
    (setupLogger env_sample true ;;; logrus.Exit (A := unit) 3)
      (mkProc InfoLevel [] [] [true; false] [] SrvNew None 0)
    = Exited 3 p'
    /\ files p' = [true; false; false].
Proof.
  destruct (setupLogger_then_Exit_closes_log_file env_sample true 3
              (mkProc InfoLevel [] [] [true; false] [] SrvNew None 0)
              eq_refl eq_refl)
    as (p' & H1 & H2 & _).
  exists p'. split; [exact H1|exact H2].
Defined.
